(** * cupy.sparse.linalg.solve: the [lsqr] shim around cusolver's csrlsvqr

    A shallow embedding of [src/cupy/sparse/linalg/solve.py].  The function
    validates its arguments, picks a precision, calls one of two native
    entry points and wraps the outcome in a scipy-shaped tuple.  Every
    collaborator ([cupy], [cupy.sparse], [cupy.cuda.cusolver], ...) is a
    field of the [Runtime] interface; the shim itself is the monadic program
    [lsqr], which threads the collaborators' world and a log of the calls it
    makes. *)

From Stdlib Require Import List String Ascii Bool ZArith NArith QArith Lia.
Import ListNotations.

Local Open Scope nat_scope.

(** ** Element types *)

(** The element types a cupy array can have. *)
Inductive dtype : Type :=
| bool_ | int8 | uint8 | int16 | uint16 | int32 | uint32 | int64 | uint64
| float16 | float32 | float64 | complex64 | complex128.

(** [numpy.dtype.char]. *)
Definition char (d : dtype) : ascii :=
  match d with
  | bool_ => "?" | int8 => "b" | uint8 => "B" | int16 => "h" | uint16 => "H"
  | int32 => "i" | uint32 => "I" | int64 => "l" | uint64 => "L"
  | float16 => "e" | float32 => "f" | float64 => "d"
  | complex64 => "F" | complex128 => "D"
  end%char.

Definition dtype_eqb (a b : dtype) : bool := Ascii.eqb (char a) (char b).

Inductive kind : Type := KBool | KInt | KUInt | KFloat | KComplex.

Definition dtype_kind (d : dtype) : kind :=
  match d with
  | bool_ => KBool
  | int8 | int16 | int32 | int64 => KInt
  | uint8 | uint16 | uint32 | uint64 => KUInt
  | float16 | float32 | float64 => KFloat
  | complex64 | complex128 => KComplex
  end.

(** Width in bits of one component (a complex number has two). *)
Definition component_bits (d : dtype) : nat :=
  match d with
  | bool_ => 1
  | int8 | uint8 => 8
  | int16 | uint16 | float16 => 16
  | int32 | uint32 | float32 | complex64 => 32
  | int64 | uint64 | float64 | complex128 => 64
  end.

Definition is_integer (d : dtype) : bool :=
  match dtype_kind d with KBool | KInt | KUInt => true | _ => false end.

Definition is_half (d : dtype) : bool := dtype_eqb d float16.

(** [numpy.can_cast(a, b)] under the default ("safe") rule, on cupy's types.
    An integer fits a float when the float's width is more than the
    integer's, except that numpy also lets the 64-bit integers into
    [float64]. *)
Definition can_cast (a b : dtype) : bool :=
  match dtype_kind a, dtype_kind b with
  | KBool, _ => true
  | _, KBool => false
  | KInt, KInt => component_bits a <=? component_bits b
  | KInt, KUInt => false
  | KUInt, KUInt => component_bits a <=? component_bits b
  | KUInt, KInt => component_bits a <? component_bits b
  | (KInt | KUInt), (KFloat | KComplex) =>
      (component_bits a <? component_bits b)
      || ((component_bits a =? 64) && (component_bits b =? 64))
  | KFloat, (KFloat | KComplex) => component_bits a <=? component_bits b
  | KComplex, KComplex => component_bits a <=? component_bits b
  | (KFloat | KComplex), _ => false
  end.

(** numpy's [__test_types], the order in which a common type is searched
    for, cut down to cupy's types.  numpy's list goes on with [g] after [d]
    and with [G] and [O] after [D]; no search below reaches them, because
    [complex128] takes every cupy type and [g] takes no complex one. *)
Definition test_types : list dtype :=
  [bool_; int8; uint8; int16; uint16; int32; uint32; int64; uint64;
   float16; float32; float64; complex64; complex128].

(** numpy's [_can_coerce_all]: the first test type every member of the list
    casts to. *)
Definition _can_coerce_all (dtypelist : list dtype) : option dtype :=
  match dtypelist with
  | [] => None
  | [d] => Some d
  | _ => find (fun t => forallb (fun x => can_cast x t) dtypelist) test_types
  end.

(** [numpy.find_common_type(array_types, ())]: with no scalar types the
    answer is [_can_coerce_all array_types]. *)
Definition find_common_type (array_types : list dtype) : option dtype :=
  _can_coerce_all array_types.

(** ** Python values *)

Definition ptr := N.

(** An array as the shim sees it: element type, shape and the address of
    its buffer ([a.data.ptr] on the device, [a.ctypes.data] on the host).
    The contents stay with the runtime. *)
Record ndarray : Type := mk_ndarray {
  nd_dtype : dtype;
  nd_shape : list nat;
  nd_ptr : ptr
}.

Definition ndim (a : ndarray) : nat := List.length (nd_shape a).

(** [len(a)]; a zero-dimensional array has no length. *)
Definition py_len (a : ndarray) : option nat :=
  match nd_shape a with
  | [] => None
  | n :: _ => Some n
  end.

(** A [cupy.sparse.csr_matrix], through the attributes the shim reads. *)
Record csr_matrix : Type := mk_csr {
  csr_shape : nat * nat;
  csr_dtype : dtype;
  csr_nnz : nat;
  csr_descr : N;
  csr_data : ndarray;
  csr_indptr : ndarray;
  csr_indices : ndarray
}.

(** What a caller may pass for [A] and [b]. *)
Inductive pyobj : Type :=
| CupyNdarray (a : ndarray)
| NumpyNdarray (a : ndarray)
| CsrMatrix (a : csr_matrix)
| PyOther.

(** Python exceptions.  [ShapeMismatchError] is what
    [util._assert_nd_squareness] raises and [NotCupyArrayError] what
    [util._assert_cupy_array] raises (their classes are not under src/);
    [CollaboratorError] is an opaque failure inside a collaborator. *)
Inductive exn : Type :=
| RuntimeError (msg : string)
| ValueError (msg : string)
| ShapeMismatchError
| NotCupyArrayError
| TypeError
| AttributeError
| CollaboratorError (code : N).

Definition result (A : Type) : Type := (exn + A)%type.

(** ** The native entry points *)

Inductive precision : Type := Single | Double.

(** The twelve arguments of [cusolver.scsrlsvqr] / [cusolver.dcsrlsvqr]. *)
Record native_args : Type := mk_native_args {
  na_handle : N;
  na_m : nat;
  na_nnz : nat;
  na_descr : N;
  na_data : ptr;
  na_indptr : ptr;
  na_indices : ptr;
  na_b : ptr;
  na_tol : Q;
  na_reorder : Z;
  na_x : ptr;
  na_singularity : ptr
}.

(** ** The log of collaborator calls

    One entry per call the shim makes, in the order made, with the
    arguments and the outcome. *)
Inductive event : Type :=
| EvCsrMatrix (o : pyobj) (r : result csr_matrix)
| EvGetHandle (r : result N)
| EvCupyEmpty (n : nat) (d : dtype) (r : result ndarray)
| EvNumpyEmpty (n : nat) (d : dtype) (r : result ndarray)
| EvNative (p : precision) (a : native_args) (r : result unit)
| EvAstype (x : ndarray) (d : dtype) (r : result ndarray)
| EvDot (A : csr_matrix) (x : ndarray) (r : result ndarray)
| EvSub (a b : ndarray) (r : result ndarray)
| EvNorm (a : ndarray) (r : result ndarray).

(** ** The collaborators *)

(** The array runtime, the sparse library, the device state and the native
    solver, over a world [W] of device and host memory.  Each call may fail
    and may change the world. *)
Class Runtime (W : Type) : Type := {
  (** [cuda.cusolver_enabled] *)
  cusolver_enabled : bool;
  (** [sparse.csr_matrix(A)] *)
  sparse_csr_matrix : pyobj -> W -> result csr_matrix * W;
  (** [device.get_cusolver_sp_handle()] *)
  get_cusolver_sp_handle : W -> result N * W;
  (** [cupy.empty(n, dtype)] *)
  cupy_empty : nat -> dtype -> W -> result ndarray * W;
  (** [numpy.empty(n, dtype)] *)
  numpy_empty : nat -> dtype -> W -> result ndarray * W;
  (** [cusolver.scsrlsvqr(...)] and [cusolver.dcsrlsvqr(...)] *)
  scsrlsvqr : native_args -> W -> result unit * W;
  dcsrlsvqr : native_args -> W -> result unit * W;
  (** [x.astype(dtype)] *)
  astype : ndarray -> dtype -> W -> result ndarray * W;
  (** [A.dot(x)] *)
  csr_dot : csr_matrix -> ndarray -> W -> result ndarray * W;
  (** [a - b] *)
  subtract : ndarray -> ndarray -> W -> result ndarray * W;
  (** [cupy.linalg.norm(a)] *)
  linalg_norm : ndarray -> W -> result ndarray * W
}.

(** ** The monad: collaborators' world, call log, Python exceptions *)

Definition state (W : Type) : Type := (W * list event)%type.

Definition M (W A : Type) : Type := state W -> result A * state W.

Section Shim.

Context {W : Type}.

Definition ret {A} (a : A) : M W A := fun s => (inr a, s).

Definition raise {A} (e : exn) : M W A := fun s => (inl e, s).

Definition bind {A B} (m : M W A) (f : A -> M W B) : M W B :=
  fun s =>
    match m s with
    | (inl e, s') => (inl e, s')
    | (inr a, s') => f a s'
    end.

(** Run a collaborator and log the call with its outcome. *)
Definition call {A} (ev : result A -> event) (op : W -> result A * W) : M W A :=
  fun s =>
    let '(r, w') := op (fst s) in
    (r, (w', snd s ++ [ev r])).

End Shim.

Declare Scope shim_scope.
Delimit Scope shim_scope with shim.
Notation "x <- m ;; k" := (bind m (fun x => k))
  (at level 61, m at next level, right associativity) : shim_scope.
Notation "m ;; k" := (bind m (fun _ => k))
  (at level 61, right associativity) : shim_scope.

(** ** The shim *)

Section Lsqr.

Context {W : Type} {RT : Runtime W}.

Local Open Scope shim_scope.

(** Modelled from the spec: [sparse.isspmatrix_csr] is not under src/; the
    spec has it as "a predicate to test whether a given matrix is already
    in that layout". *)
Definition isspmatrix_csr (o : pyobj) : bool :=
  match o with CsrMatrix _ => true | _ => false end.

(** Modelled from the spec: [util._assert_nd_squareness] is not under src/;
    the spec has "A's two dimensions must be equal (square); otherwise fail
    with a shape-mismatch error". *)
Definition _assert_nd_squareness (A : csr_matrix) : M W unit :=
  if fst (csr_shape A) =? snd (csr_shape A) then ret tt
  else raise ShapeMismatchError.

(** Modelled from the spec: [util._assert_cupy_array] is not under src/ and
    the spec does not describe it; the model follows its name and the
    docstring of [lsqr] ("b (cupy.ndarray)"): anything but a cupy array is
    refused. *)
Definition _assert_cupy_array (b : pyobj) : M W unit :=
  match b with
  | CupyNdarray _ => ret tt
  | _ => raise NotCupyArrayError
  end.

(** Lines 38-39: [A] is kept when it is a CSR matrix and converted
    otherwise. *)
Definition as_csr (A : pyobj) : M W csr_matrix :=
  if negb (isspmatrix_csr A) then call (EvCsrMatrix A) (sparse_csr_matrix A)
  else match A with
       | CsrMatrix a => ret a
       | _ => raise TypeError
       end.

(** The array behind [b.ndim], [len(b)], [b.data.ptr] and [b - ...]. *)
Definition array_of (o : pyobj) : M W ndarray :=
  match o with
  | CupyNdarray a | NumpyNdarray a => ret a
  | _ => raise AttributeError
  end.

(** Lines 47-50: the working element type.  [None] is the case in which
    [numpy.find_common_type] finds nothing and returns [None]. *)
Definition select_dtype (a : dtype) : option dtype :=
  if Ascii.eqb (char a) "f" || Ascii.eqb (char a) "d" then Some a
  else find_common_type [a; float32].

Definition b_size_message : string :=
  "b must be 1-d array whose size is same as A"%string.

Definition unsupported_message : string :=
  "Current cupy only supports cusolver in CUDA 8.0"%string.

(** Line 43, with Python's short-circuit [or]. *)
Definition check_b (b : ndarray) (m : nat) : M W unit :=
  if negb (ndim b =? 1) then raise (ValueError b_size_message)
  else match py_len b with
       | None => raise TypeError
       | Some n =>
           if negb (n =? m) then raise (ValueError b_size_message)
           else ret tt
       end.

(** A call of the native entry point of precision [p]. *)
Definition native (p : precision) (a : native_args) : M W unit :=
  call (EvNative p a)
       (match p with Single => scsrlsvqr a | Double => dcsrlsvqr a end).

(** The returned tuple; [None] is Python's [None]. *)
Definition ret_tuple (x r1norm xnorm : ndarray) : list (option ndarray) :=
  [Some x; None; None; Some r1norm; None; None; None; None; Some xnorm; None].

(** [lsqr(A, b)], lines 14-72 of solve.py, statement by statement. *)
Definition lsqr (A b : pyobj) : M W (list (option ndarray)) :=
  if negb cusolver_enabled then raise (RuntimeError unsupported_message)
  else
    A <- as_csr A ;;
    _assert_nd_squareness A ;;
    _assert_cupy_array b ;;
    b <- array_of b ;;
    let m := fst (csr_shape A) in
    check_b b m ;;
    dtype <- match select_dtype (csr_dtype A) with
             | Some d => ret d
             | None => raise AttributeError
             end ;;
    handle <- call EvGetHandle get_cusolver_sp_handle ;;
    let nnz := csr_nnz A in
    let tol := 1%Q in
    let reorder := 1%Z in
    x <- call (EvCupyEmpty m dtype) (cupy_empty m dtype) ;;
    singularity <- call (EvNumpyEmpty 1 int64) (numpy_empty 1 int64) ;;
    let csrlsvqr :=
      if Ascii.eqb (char dtype) "f" then native Single else native Double in
    csrlsvqr (mk_native_args handle m nnz (csr_descr A)
                (nd_ptr (csr_data A)) (nd_ptr (csr_indptr A))
                (nd_ptr (csr_indices A)) (nd_ptr b) tol reorder
                (nd_ptr x) (nd_ptr singularity)) ;;
    x <- call (EvAstype x float64) (astype x float64) ;;
    ax <- call (EvDot A x) (csr_dot A x) ;;
    diff <- call (EvSub b ax) (subtract b ax) ;;
    r1norm <- call (EvNorm diff) (linalg_norm diff) ;;
    xnorm <- call (EvNorm x) (linalg_norm x) ;;
    ret (ret_tuple x r1norm xnorm).

End Lsqr.

(** ** What a call leaves in the log *)

(** The native calls of a log: entry point and arguments. *)
Definition native_calls (tr : list event) : list (precision * native_args) :=
  flat_map (fun e => match e with
                     | EvNative p a _ => [(p, a)]
                     | _ => []
                     end) tr.

(** Whether the collaborator call behind an entry returned normally. *)
Definition event_ok (e : event) : bool :=
  match e with
  | EvCsrMatrix _ (inr _) | EvGetHandle (inr _) | EvCupyEmpty _ _ (inr _)
  | EvNumpyEmpty _ _ (inr _) | EvNative _ _ (inr _) | EvAstype _ _ (inr _)
  | EvDot _ _ (inr _) | EvSub _ _ (inr _) | EvNorm _ (inr _) => true
  | _ => false
  end.

(** The number of slots of a tuple that hold a value. *)
Definition populated (t : list (option ndarray)) : nat :=
  List.length
    (filter (fun o => match o with Some _ => true | None => false end) t).

(** The entry point line 59 picks for a working type. *)
Definition entry_point (d : dtype) : precision :=
  if Ascii.eqb (char d) "f" then Single else Double.

(** The arguments line 63 hands to the native entry point. *)
Definition native_args_of (A : csr_matrix) (b : ndarray) (handle : N)
    (x singularity : ndarray) : native_args :=
  mk_native_args handle (fst (csr_shape A)) (csr_nnz A) (csr_descr A)
    (nd_ptr (csr_data A)) (nd_ptr (csr_indptr A)) (nd_ptr (csr_indices A))
    (nd_ptr b) 1%Q 1%Z (nd_ptr x) (nd_ptr singularity).

(** The calls of lines 52-70 when each of them returns: handle, the two
    allocations, the native call, the upcast and the two norms. *)
Definition solve_log (A : csr_matrix) (b : ndarray) (d : dtype) (handle : N)
    (x0 singularity x ax diff r1norm xnorm : ndarray) : list event :=
  [ EvGetHandle (inr handle);
    EvCupyEmpty (fst (csr_shape A)) d (inr x0);
    EvNumpyEmpty 1 int64 (inr singularity);
    EvNative (entry_point d) (native_args_of A b handle x0 singularity)
      (inr tt);
    EvAstype x0 float64 (inr x);
    EvDot A x (inr ax);
    EvSub b ax (inr diff);
    EvNorm diff (inr r1norm);
    EvNorm x (inr xnorm) ].

(** The log of one call of [lsqr], started with an empty log. *)
Definition run_log {W : Type} {RT : Runtime W} (A b : pyobj) (w : W)
  : list event :=
  snd (snd (lsqr A b (w, []))).

(** The array runtime's contract for [astype]: the answer has the element
    type asked for. *)
Definition astype_law {W : Type} (RT : Runtime W) : Prop :=
  forall x d w y w', astype x d w = (inr y, w') -> nd_dtype y = d.

(** ** The calls of a run, for the anatomy of failing runs *)

(** A collaborator call without its outcome. *)
Inductive call_id : Type :=
| CCsrMatrix (o : pyobj)
| CGetHandle
| CCupyEmpty (n : nat) (d : dtype)
| CNumpyEmpty (n : nat) (d : dtype)
| CNative (p : precision) (a : native_args)
| CAstype (x : ndarray) (d : dtype)
| CDot (A : csr_matrix) (x : ndarray)
| CSub (a b : ndarray)
| CNorm (a : ndarray).

Definition call_of (e : event) : call_id :=
  match e with
  | EvCsrMatrix o _ => CCsrMatrix o
  | EvGetHandle _ => CGetHandle
  | EvCupyEmpty n d _ => CCupyEmpty n d
  | EvNumpyEmpty n d _ => CNumpyEmpty n d
  | EvNative p a _ => CNative p a
  | EvAstype x d _ => CAstype x d
  | EvDot A x _ => CDot A x
  | EvSub a b _ => CSub a b
  | EvNorm a _ => CNorm a
  end.

(** The exception a logged call ended with, if it did. *)
Definition event_error (e : event) : option exn :=
  match e with
  | EvCsrMatrix _ (inl x) | EvGetHandle (inl x) | EvCupyEmpty _ _ (inl x)
  | EvNumpyEmpty _ _ (inl x) | EvNative _ _ (inl x) | EvAstype _ _ (inl x)
  | EvDot _ _ (inl x) | EvSub _ _ (inl x) | EvNorm _ (inl x) => Some x
  | _ => None
  end.

(** The exception the last call of a log ended with, if it did. *)
Definition last_error (tr : list event) : option exn :=
  match rev tr with
  | e :: _ => event_error e
  | [] => None
  end.

(** The conversions [sparse.csr_matrix(...)] of a log. *)
Definition conversions (tr : list event) : list pyobj :=
  flat_map (fun e => match e with
                     | EvCsrMatrix o _ => [o]
                     | _ => []
                     end) tr.

(** The casts [astype] of a log: array and target type. *)
Definition casts (tr : list event) : list (ndarray * dtype) :=
  flat_map (fun e => match e with
                     | EvAstype x d _ => [(x, d)]
                     | _ => []
                     end) tr.

(** What lines 52-72 can leave behind, from the state [s1] the guards
    left: either all nine calls of [solve_log] returned and the tuple is
    built from them, or the first [k] of them returned, the next one (the
    same call, with the values obtained so far) ended with an exception,
    and that exception is the result. *)
Definition tail_outcome {W : Type} (A : csr_matrix) (b : ndarray) (d : dtype)
    (s1 : state W) (R : result (list (option ndarray)) * state W) : Prop :=
  exists h x0 sing x ax diff r1norm xnorm,
    (exists w', R = (inr (ret_tuple x r1norm xnorm),
                     (w', snd s1 ++ solve_log A b d h x0 sing x ax diff
                                     r1norm xnorm)))
    \/ (exists k e ev w',
          k < 9
          /\ R = (inl e,
                  (w', snd s1
                       ++ firstn k (solve_log A b d h x0 sing x ax diff
                                      r1norm xnorm)
                       ++ [ev]))
          /\ nth_error (map call_of (solve_log A b d h x0 sing x ax diff
                                       r1norm xnorm)) k
             = Some (call_of ev)
          /\ event_error ev = Some e).

(** ** A reference runtime

    A small executable instance of [Runtime], to run [lsqr] on concrete
    inputs.  Device buffers hold either numbers or the unevaluated
    expression that produced them (the numerics belong to the array
    runtime, not to the shim); the native solver is scripted: it writes a
    given solution and a given singularity flag, or fails. *)
Module Ref.

Inductive buf : Type :=
| BData (l : list Q)
| BUninit (n : nat)
| BAstype (d : dtype) (b : buf)
| BDot (data indptr indices x : buf)
| BSub (a b : buf)
| BNorm (a : buf).

Record world : Type := mk_world {
  next : ptr;
  dev : list (ptr * buf);
  host : list (ptr * list Z)
}.

Record script : Type := mk_script {
  sc_enabled : bool;
  sc_handle : N;
  (** what the native routine writes to [x] and to the singularity
      scalar; [None] when the native call fails *)
  sc_native : option (list Q * Z)
}.

Definition lookup {V} (m : list (ptr * V)) (p : ptr) : option V :=
  match find (fun kv => N.eqb (fst kv) p) m with
  | Some kv => Some (snd kv)
  | None => None
  end.

Definition dev_alloc (b : buf) (w : world) : ptr * world :=
  (next w, mk_world (N.succ (next w)) ((next w, b) :: dev w) (host w)).

Definition host_alloc (l : list Z) (w : world) : ptr * world :=
  (next w, mk_world (N.succ (next w)) (dev w) ((next w, l) :: host w)).

Definition failed {A} (w : world) : result A * world :=
  (inl (CollaboratorError 1%N), w).

(** The stored entries of one dense row, with their columns. *)
Fixpoint row_entries (col : nat) (row : list Q) : list (nat * Q) :=
  match row with
  | [] => []
  | q :: r =>
      if Qeq_bool q 0 then row_entries (S col) r
      else (col, q) :: row_entries (S col) r
  end.

Fixpoint rows_of (m n : nat) (l : list Q) : list (list Q) :=
  match m with
  | O => []
  | S m' => firstn n l :: rows_of m' n (skipn n l)
  end.

Fixpoint row_pointers (start : nat) (rows : list (list (nat * Q))) : list nat :=
  match rows with
  | [] => [start]
  | r :: rs => start :: row_pointers (start + List.length r) rs
  end.

Definition Q_of_nat (n : nat) : Q := inject_Z (Z.of_nat n).

(** Conversion of a dense two-dimensional device array to CSR. *)
Definition ref_csr_matrix (o : pyobj) (w : world) : result csr_matrix * world :=
  match o with
  | CupyNdarray a =>
      match nd_shape a, lookup (dev w) (nd_ptr a) with
      | [m; n], Some (BData l) =>
          let rows := map (row_entries 0) (rows_of m n l) in
          let entries := List.concat rows in
          let '(pd, w1) := dev_alloc (BData (map snd entries)) w in
          let '(pp, w2) :=
            dev_alloc (BData (map Q_of_nat (row_pointers 0 rows))) w1 in
          let '(pi, w3) :=
            dev_alloc (BData (map (fun e => Q_of_nat (fst e)) entries)) w2 in
          (inr (mk_csr (m, n) (nd_dtype a) (List.length entries) 0%N
                  (mk_ndarray (nd_dtype a) [List.length entries] pd)
                  (mk_ndarray int32 [S m] pp)
                  (mk_ndarray int32 [List.length entries] pi)), w3)
      | _, _ => failed w
      end
  | _ => failed w
  end.

Definition ref_cupy_empty (n : nat) (d : dtype) (w : world)
  : result ndarray * world :=
  let '(p, w') := dev_alloc (BUninit n) w in
  (inr (mk_ndarray d [n] p), w').

Definition ref_numpy_empty (n : nat) (d : dtype) (w : world)
  : result ndarray * world :=
  let '(p, w') := host_alloc (repeat 0%Z n) w in
  (inr (mk_ndarray d [n] p), w').

Definition ref_native (s : script) (a : native_args) (w : world)
  : result unit * world :=
  match sc_native s with
  | None => failed w
  | Some (xs, flag) =>
      (inr tt, mk_world (next w) ((na_x a, BData xs) :: dev w)
                 ((na_singularity a, [flag]) :: host w))
  end.

Definition ref_astype (x : ndarray) (d : dtype) (w : world)
  : result ndarray * world :=
  match lookup (dev w) (nd_ptr x) with
  | Some b =>
      let '(p, w') := dev_alloc (BAstype d b) w in
      (inr (mk_ndarray d (nd_shape x) p), w')
  | None => failed w
  end.

Definition ref_dot (A : csr_matrix) (x : ndarray) (w : world)
  : result ndarray * world :=
  match lookup (dev w) (nd_ptr (csr_data A)),
        lookup (dev w) (nd_ptr (csr_indptr A)),
        lookup (dev w) (nd_ptr (csr_indices A)),
        lookup (dev w) (nd_ptr x) with
  | Some d, Some ip, Some ix, Some bx =>
      let '(p, w') := dev_alloc (BDot d ip ix bx) w in
      (inr (mk_ndarray (nd_dtype x) [fst (csr_shape A)] p), w')
  | _, _, _, _ => failed w
  end.

Definition ref_subtract (a b : ndarray) (w : world) : result ndarray * world :=
  match lookup (dev w) (nd_ptr a), lookup (dev w) (nd_ptr b) with
  | Some ba, Some bb =>
      let '(p, w') := dev_alloc (BSub ba bb) w in
      (inr (mk_ndarray (nd_dtype b) (nd_shape a) p), w')
  | _, _ => failed w
  end.

Definition ref_norm (a : ndarray) (w : world) : result ndarray * world :=
  match lookup (dev w) (nd_ptr a) with
  | Some b =>
      let '(p, w') := dev_alloc (BNorm b) w in
      (inr (mk_ndarray float64 [] p), w')
  | None => failed w
  end.

#[export] Instance runtime (s : script) : Runtime world := {
  cusolver_enabled := sc_enabled s;
  sparse_csr_matrix := ref_csr_matrix;
  get_cusolver_sp_handle := fun w => (inr (sc_handle s), w);
  cupy_empty := ref_cupy_empty;
  numpy_empty := ref_numpy_empty;
  scsrlsvqr := ref_native s;
  dcsrlsvqr := ref_native s;
  astype := ref_astype;
  csr_dot := ref_dot;
  subtract := ref_subtract;
  linalg_norm := ref_norm
}.

(** Run [lsqr] under a script from a given world, with an empty log. *)
Definition run (s : script) (A b : pyobj) (w : world)
  : result (list (option ndarray)) * state world :=
  @lsqr world (runtime s) A b (w, []).

(** *** Concrete inputs *)

Definition q (z : Z) : Q := inject_Z z.

(** A 2x2 CSR matrix with all four entries stored: buffers at 1, 2, 3. *)
Definition csr_2x2 (d : dtype) : csr_matrix :=
  mk_csr (2, 2) d 4 0%N
    (mk_ndarray d [4] 1%N) (mk_ndarray int32 [3] 2%N)
    (mk_ndarray int32 [4] 3%N).

(** A 2x3 CSR matrix with the same buffers. *)
Definition csr_2x3 (d : dtype) : csr_matrix :=
  mk_csr (2, 3) d 4 0%N
    (mk_ndarray d [4] 1%N) (mk_ndarray int32 [3] 2%N)
    (mk_ndarray int32 [4] 3%N).

(** A vector of [n] elements at address 4. *)
Definition vec (d : dtype) (n : nat) : ndarray := mk_ndarray d [n] 4%N.

(** Device memory holding the matrix [[a, b], [c, e]] in CSR form and the
    right-hand side [[b0, b1]]. *)
Definition world_2x2 (a b c e b0 b1 : Z) : world :=
  mk_world 10%N
    [ (1%N, BData [q a; q b; q c; q e]);
      (2%N, BData [q 0; q 2; q 4]);
      (3%N, BData [q 0; q 1; q 0; q 1]);
      (4%N, BData [q b0; q b1]) ]
    [].

(** The native routine writes [x = [1, 0]] and the flag [flag]. *)
Definition writes (flag : Z) : script :=
  mk_script true 7%N (Some ([q 1; q 0], flag)).

Definition disabled : script := mk_script false 7%N (Some ([q 1; q 0], (-1)%Z)).

(** A dense 2x2 [float32] device array over the buffer at address 1. *)
Definition dense_2x2 : ndarray := mk_ndarray float32 [2; 2] 1%N.

(** A runtime whose native routine fails. *)
Definition native_fails : script := mk_script true 7%N None.

(** The regular system [[4, 1], [1, 3]] x = [1, 2]. *)
Definition regular_world : world := world_2x2 4 1 1 3 1 2.

(** The singular system [[1, 1], [1, 1]] x = [1, 1]. *)
Definition singular_world : world := world_2x2 1 1 1 1 1 1.

(** [lsqr] on the singular system, the native routine reporting [flag]. *)
Definition singular_run (flag : Z)
  : result (list (option ndarray)) * state world :=
  run (writes flag) (CsrMatrix (csr_2x2 float64)) (CupyNdarray (vec float64 2))
      singular_world.

End Ref.

(** ** Facts about the precision rule *)

Lemma select_dtype_total (a : dtype) :
  exists d, select_dtype a = Some d.
Proof. destruct a; vm_compute; eexists; reflexivity. Qed.

Lemma select_dtype_range (a d : dtype) :
  select_dtype a = Some d ->
  d = float32 \/ d = float64 \/ d = complex64 \/ d = complex128.
Proof.
  destruct a; vm_compute; intros H; inversion H; subst; auto.
Qed.



Lemma native_calls_app (l1 l2 : list event) :
  native_calls (l1 ++ l2) = native_calls l1 ++ native_calls l2.
Proof. unfold native_calls. apply flat_map_app. Qed.

(** The reference runtime keeps the contract of [astype]. *)
Lemma ref_astype_law (s : Ref.script) : astype_law (Ref.runtime s).
Proof.
  intros x d w y w'. simpl. unfold Ref.ref_astype.
  destruct (Ref.lookup (Ref.dev w) (nd_ptr x)); simpl.
  - intros H. inversion H. reflexivity.
  - unfold Ref.failed. intros H. discriminate H.
Qed.

(** ** Proof tools *)

(** Case analysis on the innermost scrutinee of a hypothesis. *)
Ltac innermost_match_in H :=
  match type of H with
  | context [match ?x with _ => _ end] =>
      lazymatch x with
      | context [match _ with _ => _ end] => fail
      | _ => destruct x eqn:?
      end
  end.

Ltac unfold_shim H :=
  cbv beta delta [lsqr bind call ret raise as_csr _assert_nd_squareness
                  _assert_cupy_array array_of check_b native] in H.

Section Properties.

Context {W : Type} {RT : Runtime W}.

(** Lines 38-39 make at most the conversion call. *)
Lemma as_csr_log (A : pyobj) (s s1 : state W) (r : result csr_matrix) :
  as_csr A s = (r, s1) ->
  snd s1 = snd s \/ exists r', snd s1 = snd s ++ [EvCsrMatrix A r'].
Proof.
  unfold as_csr, call, ret, raise.
  destruct (isspmatrix_csr A); simpl.
  - destruct A; intros H; inversion H; auto.
  - destruct (sparse_csr_matrix A (fst s)) as [r0 w0]. intros H.
    inversion H; subst. right. exists r. reflexivity.
Qed.

Lemma as_csr_native_calls (A : pyobj) (s s1 : state W) (r : result csr_matrix) :
  as_csr A s = (r, s1) -> native_calls (snd s1) = native_calls (snd s).
Proof.
  intros H. destruct (as_csr_log _ _ _ _ H) as [E | [r' E]]; rewrite E.
  - reflexivity.
  - rewrite native_calls_app. simpl. apply app_nil_r.
Qed.

Lemma bind_inr {A B} (m : M W A) (f : A -> M W B) (s s' : state W) (b : B) :
  bind m f s = (inr b, s') ->
  exists a s1, m s = (inr a, s1) /\ f a s1 = (inr b, s').
Proof.
  unfold bind. destruct (m s) as [[e | a] s1]; intros H.
  - discriminate H.
  - exists a, s1. auto.
Qed.

Lemma call_inr {A} (ev : result A -> event) (op : W -> result A * W)
    (s s' : state W) (a : A) :
  call ev op s = (inr a, s') ->
  snd s' = snd s ++ [ev (inr a)] /\ op (fst s) = (inr a, fst s').
Proof.
  unfold call. destruct (op (fst s)) as [r w']. intros H.
  inversion H; subst. split; reflexivity.
Qed.

Lemma ndim_one_len (b : ndarray) : ndim b = 1 -> exists n, py_len b = Some n.
Proof.
  unfold ndim, py_len. destruct (nd_shape b) as [| n l]; simpl; intros H.
  - discriminate H.
  - exists n. reflexivity.
Qed.

Tactic Notation "inv_bind" hyp(H) "as" ident(a) ident(s) ident(E) :=
  apply bind_inr in H; destruct H as (a & s & E & H).

(** The anatomy of a call that returns: every guard passed, and after
    lines 38-39 the log grew by exactly the nine calls of [solve_log]. *)
Lemma lsqr_success_anatomy (A b : pyobj) (s s' : state W)
    (t : list (option ndarray)) :
  lsqr A b s = (inr t, s') ->
  exists a s1 bv d h x0 sing x64 ax diff r1 xn,
    cusolver_enabled = true
    /\ as_csr A s = (inr a, s1)
    /\ fst (csr_shape a) = snd (csr_shape a)
    /\ b = CupyNdarray bv
    /\ ndim bv = 1
    /\ py_len bv = Some (fst (csr_shape a))
    /\ select_dtype (csr_dtype a) = Some d
    /\ snd s' = snd s1 ++ solve_log a bv d h x0 sing x64 ax diff r1 xn
    /\ (exists w0 w1, astype x0 float64 w0 = (inr x64, w1))
    /\ t = ret_tuple x64 r1 xn.
Proof.
  unfold lsqr. intros H.
  destruct cusolver_enabled eqn:En; simpl in H; [| discriminate H].
  inv_bind H as a s1 Ecsr.
  inv_bind H as u1 s2 Esq. unfold _assert_nd_squareness in Esq.
  destruct (fst (csr_shape a) =? snd (csr_shape a)) eqn:Hsq;
    [| discriminate Esq].
  inversion Esq; subst; clear Esq.
  inv_bind H as u2 s3 Ecu. destruct b as [bv | | |]; try discriminate Ecu.
  inversion Ecu; subst; clear Ecu.
  inv_bind H as bv' s4 Earr. inversion Earr; subst; clear Earr.
  inv_bind H as u3 s5 Echk. unfold check_b in Echk.
  destruct (ndim bv' =? 1) eqn:Hnd; simpl in Echk; [| discriminate Echk].
  destruct (py_len bv') as [n |] eqn:Hlen; [| discriminate Echk].
  destruct (n =? fst (csr_shape a)) eqn:Hn; simpl in Echk;
    [| discriminate Echk].
  inversion Echk; subst; clear Echk.
  inv_bind H as d s6 Ed.
  destruct (select_dtype (csr_dtype a)) as [d' |] eqn:Hd; [| discriminate Ed].
  inversion Ed; subst; clear Ed.
  inv_bind H as h s7 Eh. apply call_inr in Eh. destruct Eh as [Eh _].
  inv_bind H as x0 s8 Ex0. apply call_inr in Ex0. destruct Ex0 as [Ex0 _].
  inv_bind H as sing s9 Esing. apply call_inr in Esing.
  destruct Esing as [Esing _].
  inv_bind H as u4 s10 Enat.
  assert (Hnat : snd s10 = snd s9 ++
            [EvNative (entry_point d) (native_args_of a bv' h x0 sing)
               (inr tt)]).
  { unfold entry_point, native_args_of.
    destruct (Ascii.eqb (char d) "f"); apply call_inr in Enat;
      destruct u4; apply Enat. }
  clear Enat.
  inv_bind H as x64 s11 Ex. apply call_inr in Ex. destruct Ex as [Ex Hast].
  inv_bind H as ax s12 Eax. apply call_inr in Eax. destruct Eax as [Eax _].
  inv_bind H as diff s13 Ediff. apply call_inr in Ediff.
  destruct Ediff as [Ediff _].
  inv_bind H as r1 s14 Er1. apply call_inr in Er1. destruct Er1 as [Er1 _].
  inv_bind H as xn s15 Exn. apply call_inr in Exn. destruct Exn as [Exn _].
  inversion H; subst; clear H.
  exists a, s6, bv', d, h, x0, sing, x64, ax, diff, r1, xn.
  apply Nat.eqb_eq in Hsq, Hnd, Hn. subst n.
  repeat split; auto.
  - rewrite Exn, Er1, Ediff, Eax, Ex, Hnat, Esing, Ex0, Eh.
    unfold solve_log. rewrite <- !app_assoc. reflexivity.
  - exists (fst s10), (fst s11). exact Hast.
Qed.

(** Whatever happens, a call makes no native call or exactly one, on the
    entry point of the working type and with the arguments of line 63. *)
Lemma lsqr_native_calls_shape (A b : pyobj) (s : state W) :
  native_calls (snd (snd (lsqr A b s))) = native_calls (snd s)
  \/ exists a bv d h x0 sing,
       select_dtype (csr_dtype a) = Some d /\
       native_calls (snd (snd (lsqr A b s))) =
       native_calls (snd s) ++ [(entry_point d, native_args_of a bv h x0 sing)].
Proof.
  remember (lsqr A b s) as R eqn:HR.
  unfold_shim HR.
  repeat (innermost_match_in HR; simpl in HR).
  all: subst R; simpl; rewrite ?native_calls_app; simpl; rewrite ?app_nil_r.
  all: try (left; reflexivity).
  all: right; do 6 eexists; (split; [eassumption |]).
  all: unfold entry_point, native_args_of.
  all: match goal with E : Ascii.eqb _ _ = _ |- _ => rewrite E end.
  all: reflexivity.
Qed.

(** *** The guards of lines 35-44, in the order they are written *)

Lemma guard_capability (A b : pyobj) (s : state W) :
  cusolver_enabled = false ->
  lsqr A b s = (inl (RuntimeError unsupported_message), s).
Proof.
  intros En. unfold lsqr. rewrite En. reflexivity.
Qed.

Lemma guard_conversion (A b : pyobj) (e : exn) (s s1 : state W) :
  cusolver_enabled = true ->
  as_csr A s = (inl e, s1) ->
  lsqr A b s = (inl e, s1).
Proof.
  intros En Ecsr. unfold lsqr. rewrite En. simpl.
  unfold bind at 1. rewrite Ecsr. reflexivity.
Qed.

Lemma guard_squareness (A b : pyobj) (a : csr_matrix) (s s1 : state W) :
  cusolver_enabled = true ->
  as_csr A s = (inr a, s1) ->
  fst (csr_shape a) <> snd (csr_shape a) ->
  lsqr A b s = (inl ShapeMismatchError, s1).
Proof.
  intros En Ecsr Hsq. unfold lsqr. rewrite En. simpl.
  unfold bind at 1. rewrite Ecsr.
  unfold bind at 1, _assert_nd_squareness.
  apply Nat.eqb_neq in Hsq. rewrite Hsq. reflexivity.
Qed.

Lemma guard_cupy_array (A b : pyobj) (a : csr_matrix) (s s1 : state W) :
  cusolver_enabled = true ->
  as_csr A s = (inr a, s1) ->
  fst (csr_shape a) = snd (csr_shape a) ->
  (forall bv, b <> CupyNdarray bv) ->
  lsqr A b s = (inl NotCupyArrayError, s1).
Proof.
  intros En Ecsr Hsq Hb. unfold lsqr. rewrite En. simpl.
  unfold bind at 1. rewrite Ecsr.
  unfold bind at 1, _assert_nd_squareness.
  apply Nat.eqb_eq in Hsq. rewrite Hsq. unfold ret at 1.
  unfold bind at 1, _assert_cupy_array.
  destruct b as [bv | bv | c |]; try reflexivity.
  exfalso. apply (Hb bv). reflexivity.
Qed.

Lemma guard_b_size (A : pyobj) (a : csr_matrix) (bv : ndarray)
    (s s1 : state W) :
  cusolver_enabled = true ->
  as_csr A s = (inr a, s1) ->
  fst (csr_shape a) = snd (csr_shape a) ->
  ndim bv <> 1 \/ py_len bv <> Some (fst (csr_shape a)) ->
  lsqr A (CupyNdarray bv) s = (inl (ValueError b_size_message), s1).
Proof.
  intros En Ecsr Hsq Hb.
  unfold lsqr. rewrite En. simpl.
  unfold bind at 1. rewrite Ecsr.
  unfold bind at 1, _assert_nd_squareness.
  apply Nat.eqb_eq in Hsq. rewrite Hsq. unfold ret at 1.
  unfold bind at 1. simpl. unfold ret at 1.
  unfold bind at 1. simpl. unfold ret at 1.
  unfold bind at 1, check_b.
  destruct (ndim bv =? 1) eqn:Hnd; simpl; [| reflexivity].
  apply Nat.eqb_eq in Hnd.
  destruct Hb as [Hb | Hb]; [contradiction |].
  destruct (py_len bv) as [n |] eqn:Hlen.
  - destruct (n =? fst (csr_shape a)) eqn:Hn; simpl; [| reflexivity].
    apply Nat.eqb_eq in Hn. subst n. exfalso. apply Hb. reflexivity.
  - destruct (ndim_one_len bv Hnd) as [n Hn]. congruence.
Qed.

(** ** The claims *)

(** C1, amended: the tuple of a call that returns has exactly 10 slots, of
    which exactly 3 hold a value.  Slot 0 holds the solution, the array
    [x] that [astype(float64)] returned on line 67; slot 3 holds the
    residual norm, what [norm] returned for [b - A.dot(x)] on line 69;
    slot 8 holds the solution norm, what [norm] returned for [x] on line
    70.  The other seven slots are [None]. *)
Theorem lsqr_tuple_layout (A b : pyobj) (s s' : state W)
    (t : list (option ndarray)) :
  lsqr A b s = (inr t, s') ->
  exists pre a bv x0 x ax diff r1norm xnorm,
    snd s' = pre ++ [EvAstype x0 float64 (inr x);
                     EvDot a x (inr ax);
                     EvSub bv ax (inr diff);
                     EvNorm diff (inr r1norm);
                     EvNorm x (inr xnorm)]
    /\ b = CupyNdarray bv
    /\ t = [Some x; None; None; Some r1norm; None; None; None; None;
            Some xnorm; None]
    /\ List.length t = 10
    /\ populated t = 3.
Proof.
  intros H. apply lsqr_success_anatomy in H.
  destruct H as (a & s1 & bv & d & h & x0 & sing & x & ax & diff & r1 & xn
                 & H).
  destruct H as (_ & _ & _ & Eb & _ & _ & _ & Elog & _ & Ht). subst t.
  exists (snd s1 ++ [EvGetHandle (inr h);
                     EvCupyEmpty (fst (csr_shape a)) d (inr x0);
                     EvNumpyEmpty 1 int64 (inr sing);
                     EvNative (entry_point d)
                       (native_args_of a bv h x0 sing) (inr tt)]).
  exists a, bv, x0, x, ax, diff, r1, xn.
  split.
  - rewrite Elog. unfold solve_log. rewrite <- app_assoc. reflexivity.
  - split; [exact Eb |]. split; [reflexivity |].
    split; reflexivity.
Qed.

(** C2: when [cuda.cusolver_enabled] is false, [lsqr] raises the
    unsupported-operation error ([RuntimeError]) for every [A] and [b],
    and leaves the collaborators' world and the call log as they were: no
    buffer was allocated and no device work was attempted. *)
Theorem lsqr_unsupported_first (A b : pyobj) (s : state W) :
  cusolver_enabled = false ->
  lsqr A b s = (inl (RuntimeError unsupported_message), s).
Proof. apply guard_capability. Qed.

(** C3, amended: when the capability is present, [A] is (or converts to) a
    square CSR matrix and [b] is a cupy array, a [b] that is not
    one-dimensional or whose length is not [A]'s row count makes [lsqr]
    raise [ValueError] with the message "b must be 1-d array whose size is
    same as A", and no native call is made. *)
Theorem lsqr_bad_b_value_error (A : pyobj) (a : csr_matrix) (bv : ndarray)
    (s s1 : state W) :
  cusolver_enabled = true ->
  as_csr A s = (inr a, s1) ->
  fst (csr_shape a) = snd (csr_shape a) ->
  ndim bv <> 1 \/ py_len bv <> Some (fst (csr_shape a)) ->
  lsqr A (CupyNdarray bv) s = (inl (ValueError b_size_message), s1)
  /\ native_calls (snd s1) = native_calls (snd s).
Proof.
  intros En Ecsr Hsq Hb. split.
  - eapply guard_b_size; eassumption.
  - eapply as_csr_native_calls. exact Ecsr.
Qed.

(** C4: the working element type is [A]'s own when that is [float32] or
    [float64], and otherwise numpy's common type of [A]'s element type and
    [float32]: the type both cast to that casts to every other type both
    cast to.  That is [float32] for [bool], the integers of at most 16
    bits and [float16], [float64] for the wider integers, and the complex
    type itself for a complex one.  It always exists, is at least single
    precision ([float32] casts to it), and is never an integer type nor
    [float16]. *)
Theorem select_dtype_rule (a : dtype) :
  select_dtype a =
    (if dtype_eqb a float32 || dtype_eqb a float64 then Some a
     else find_common_type [a; float32])
  /\ select_dtype float32 = Some float32
  /\ select_dtype float64 = Some float64
  /\ exists d,
       select_dtype a = Some d
       /\ d = match dtype_kind a with
              | KComplex => a
              | _ => if (component_bits a <=? 16) || dtype_eqb a float32
                     then float32 else float64
              end
       /\ can_cast a d = true
       /\ can_cast float32 d = true
       /\ (forall t, can_cast a t = true -> can_cast float32 t = true ->
                     can_cast d t = true)
       /\ is_integer d = false
       /\ is_half d = false.
Proof.
  split; [reflexivity |]. split; [reflexivity |]. split; [reflexivity |].
  destruct a; eexists; (split; [reflexivity |]); (split; [reflexivity |]);
    (split; [reflexivity |]); (split; [reflexivity |]);
    (split; [| split; reflexivity]);
    intros t; destruct t; vm_compute; intros H1 H2;
    first [reflexivity | discriminate H1 | discriminate H2].
Qed.

(** C6: every native call a run of [lsqr] makes carries the tolerance
    [1.0] and the reordering flag [1], whatever [A] and [b] are. *)
Theorem native_call_tolerance_fixed (A b : pyobj) (w : W) :
  Forall (fun pa => na_tol (snd pa) = 1%Q /\ na_reorder (snd pa) = 1%Z)
         (native_calls (run_log A b w)).
Proof.
  unfold run_log.
  destruct (lsqr_native_calls_shape A b (w, [])) as [E | E].
  - rewrite E. simpl. constructor.
  - destruct E as (a & bv & d & h & x0 & sing & _ & E).
    rewrite E. simpl. constructor; [| constructor].
    simpl. split; reflexivity.
Qed.

(** C7: a call that returns made, after lines 38-39, exactly the calls
    listed below, and returns the tuple written out below.  Its slot 0 is
    [x], what [astype(float64)] returned for the buffer [x0] handed to the
    native routine: it is double precision whatever the working type [d]
    was.  Its slot 3 is what [norm] returned for [b - A.dot(x)], taken
    with that [x], and its slot 8 is what [norm] returned for [x]. *)
Theorem lsqr_postprocessing (A b : pyobj) (s s' : state W)
    (t : list (option ndarray)) :
  astype_law RT ->
  lsqr A b s = (inr t, s') ->
  exists a s1 bv d h x0 sing x ax diff r1norm xnorm,
    as_csr A s = (inr a, s1)
    /\ b = CupyNdarray bv
    /\ snd s' = snd s1
                ++ [EvGetHandle (inr h);
                    EvCupyEmpty (fst (csr_shape a)) d (inr x0);
                    EvNumpyEmpty 1 int64 (inr sing);
                    EvNative (entry_point d)
                      (native_args_of a bv h x0 sing) (inr tt);
                    EvAstype x0 float64 (inr x);
                    EvDot a x (inr ax);
                    EvSub bv ax (inr diff);
                    EvNorm diff (inr r1norm);
                    EvNorm x (inr xnorm)]
    /\ na_x (native_args_of a bv h x0 sing) = nd_ptr x0
    /\ nd_dtype x = float64
    /\ t = [Some x; None; None; Some r1norm; None; None; None; None;
            Some xnorm; None].
Proof.
  intros Hlaw H. apply lsqr_success_anatomy in H.
  destruct H as (a & s1 & bv & d & h & x0 & sing & x & ax & diff & r1 & xn
                 & H).
  destruct H as (_ & Ecsr & _ & Eb & _ & _ & _ & Elog & Hast & Ht).
  destruct Hast as (w0 & w1 & Hast).
  exists a, s1, bv, d, h, x0, sing, x, ax, diff, r1, xn.
  split; [exact Ecsr |]. split; [exact Eb |].
  split; [exact Elog |]. split; [reflexivity |].
  split; [eapply Hlaw; exact Hast | exact Ht].
Qed.

(** C8, amended: when the capability is present and [A] is a CSR matrix,
    or is converted by [sparse.csr_matrix] to one, whose two dimensions
    differ, [lsqr] raises the shape-mismatch error, whatever [b] is, in
    the state the conversion left: no native call has been made. *)
Theorem lsqr_nonsquare_rejected (A b : pyobj) (a : csr_matrix)
    (s s1 : state W) :
  cusolver_enabled = true ->
  as_csr A s = (inr a, s1) ->
  fst (csr_shape a) <> snd (csr_shape a) ->
  lsqr A b s = (inl ShapeMismatchError, s1)
  /\ native_calls (snd s1) = native_calls (snd s).
Proof.
  intros En Ecsr Hsq. split.
  - eapply guard_squareness; eassumption.
  - eapply as_csr_native_calls. exact Ecsr.
Qed.

(** C9, amended: for a square [A] (singular or not) and a compatible cupy
    vector [b], when the capability is present and every collaborator call
    returns, [lsqr] returns its tuple, whatever the native routine wrote
    to the singularity scalar: that scalar is allocated, its address is
    handed to the native routine, and no later call and no slot of the
    tuple takes it. *)
Theorem lsqr_succeeds_flag_unread (A : pyobj) (a : csr_matrix) (bv : ndarray)
    (w : W) (s1 : state W) :
  cusolver_enabled = true ->
  as_csr A (w, []) = (inr a, s1) ->
  fst (csr_shape a) = snd (csr_shape a) ->
  ndim bv = 1 ->
  py_len bv = Some (fst (csr_shape a)) ->
  forallb event_ok (run_log A (CupyNdarray bv) w) = true ->
  exists d h x0 sing x ax diff r1norm xnorm s',
    lsqr A (CupyNdarray bv) (w, []) = (inr (ret_tuple x r1norm xnorm), s')
    /\ snd s' = snd s1 ++ solve_log a bv d h x0 sing x ax diff r1norm xnorm.
Proof.
  intros En Ecsr Hsq Hnd Hlen Hok.
  destruct (select_dtype_total (csr_dtype a)) as [d Hd].
  unfold run_log in Hok.
  eassert (E : lsqr A (CupyNdarray bv) (w, []) = _).
  { unfold lsqr. rewrite En. simpl.
    unfold bind at 1. rewrite Ecsr.
    unfold bind at 1, _assert_nd_squareness.
    rewrite (proj2 (Nat.eqb_eq _ _) Hsq). unfold ret at 1.
    unfold bind at 1. simpl. unfold ret at 1.
    unfold bind at 1. simpl. unfold ret at 1.
    unfold bind at 1, check_b.
    rewrite (proj2 (Nat.eqb_eq _ _) Hnd). simpl. rewrite Hlen.
    rewrite Nat.eqb_refl. simpl. unfold ret at 1.
    unfold bind at 1. rewrite Hd. simpl.
    reflexivity. }
  rewrite E in Hok |- *. clear E.
  match type of Hok with
  | forallb _ (snd (snd ?R)) = _ => remember R as R0 eqn:HR
  end.
  cbv beta delta [bind call ret raise native] in HR.
  repeat (innermost_match_in HR; simpl in HR).
  all: subst R0; simpl in Hok; rewrite ?forallb_app in Hok; simpl in Hok.
  all: rewrite ?andb_false_r in Hok; try discriminate Hok.
  all: repeat match goal with u : unit |- _ => destruct u end.
  all: do 10 eexists; (split; [reflexivity |]); simpl.
  all: unfold solve_log, entry_point, native_args_of.
  all: match goal with E : Ascii.eqb _ _ = _ |- _ => rewrite E end.
  all: rewrite <- !app_assoc; reflexivity.
Qed.

(** C10: a [b] that is not a cupy array (a host numpy array, say) is always
    refused, and without any native call.  When the two earlier guards pass
    the error is the one of the array-type check, whatever the number of
    dimensions and the length of [b]: the check comes before line 43. *)
Theorem lsqr_rejects_host_b (A b : pyobj) (s : state W) :
  (forall bv, b <> CupyNdarray bv) ->
  (exists e, fst (lsqr A b s) = inl e)
  /\ native_calls (snd (snd (lsqr A b s))) = native_calls (snd s)
  /\ (forall a s1,
        cusolver_enabled = true ->
        as_csr A s = (inr a, s1) ->
        fst (csr_shape a) = snd (csr_shape a) ->
        lsqr A b s = (inl NotCupyArrayError, s1)).
Proof.
  intros Hb.
  assert (Hcase :
    exists e s1, lsqr A b s = (inl e, s1)
                 /\ native_calls (snd s1) = native_calls (snd s)).
  { destruct cusolver_enabled eqn:En.
    - destruct (as_csr A s) as [[e | a] s1] eqn:Ecsr.
      + exists e, s1. split.
        * eapply guard_conversion; eassumption.
        * eapply as_csr_native_calls; exact Ecsr.
      + destruct (Nat.eq_dec (fst (csr_shape a)) (snd (csr_shape a)))
          as [Hsq | Hsq].
        * exists NotCupyArrayError, s1. split.
          -- eapply guard_cupy_array; eassumption.
          -- eapply as_csr_native_calls; exact Ecsr.
        * exists ShapeMismatchError, s1. split.
          -- eapply guard_squareness; eassumption.
          -- eapply as_csr_native_calls; exact Ecsr.
    - exists (RuntimeError unsupported_message), s. split.
      + apply guard_capability. exact En.
      + reflexivity. }
  destruct Hcase as (e & s1 & E & Hn).
  split; [| split].
  - exists e. rewrite E. reflexivity.
  - rewrite E. exact Hn.
  - intros a s2 En Ecsr Hsq. eapply guard_cupy_array; eassumption.
Qed.

End Properties.

(** ** Runs of the reference runtime *)

(** What lines 47-62 would do with a [complex64] matrix, were one ever to
    reach them: the working type is [complex64], the buffer for [x] is
    allocated in that type at address 10, and line 62 picks [dcsrlsvqr]. *)
Example complex64_matrix_calls_double_entry :
  select_dtype complex64 = Some complex64
  /\ complex64 <> float64
  /\ native_calls
       (@run_log Ref.world (Ref.runtime (Ref.writes (-1)))
          (CsrMatrix (Ref.csr_2x2 complex64))
          (CupyNdarray (Ref.vec complex64 2)) Ref.regular_world)
     = [(Double,
         native_args_of (Ref.csr_2x2 complex64) (Ref.vec complex64 2) 7%N
           (mk_ndarray complex64 [2] 10%N) (mk_ndarray int64 [1] 11%N))].
Proof.
  split; [reflexivity |]. split; [discriminate |]. vm_compute. reflexivity.
Qed.

(** A dense [float32] matrix is converted first (three device buffers, at
    10, 11 and 12) and then solved through the single-precision entry
    point, with [x] at 13 and the singularity scalar at 14. *)
Example dense_float32_calls_single_entry :
  native_calls
    (@run_log Ref.world (Ref.runtime (Ref.writes (-1)))
       (CupyNdarray Ref.dense_2x2) (CupyNdarray (Ref.vec float32 2))
       Ref.regular_world)
  = [(Single,
      mk_native_args 7%N 2 4 0%N 10%N 11%N 12%N 4%N 1%Q 1%Z 13%N 14%N)].
Proof. vm_compute. reflexivity. Qed.

(** C1, as stated, fails: on the regular 2x2 system the call returns a
    tuple of 10 slots of which 3, not 4, hold a value. *)
Lemma lsqr_tuple_not_four_values :
  exists t s',
    Ref.run (Ref.writes (-1)) (CsrMatrix (Ref.csr_2x2 float64))
      (CupyNdarray (Ref.vec float64 2)) Ref.regular_world = (inr t, s')
    /\ List.length t = 10
    /\ populated t = 3
    /\ populated t <> 4.
Proof.
  eexists. eexists. split; [vm_compute; reflexivity |].
  split; [reflexivity |]. split; [reflexivity |]. discriminate.
Qed.

Lemma lsqr_tuple_layout_witness :
  exists s' pre a bv x0 ax diff,
    Ref.run (Ref.writes (-1)) (CsrMatrix (Ref.csr_2x2 float64))
      (CupyNdarray (Ref.vec float64 2)) Ref.regular_world
    = (inr [Some (mk_ndarray float64 [2] 12%N); None; None;
            Some (mk_ndarray float64 [] 15%N); None; None; None; None;
            Some (mk_ndarray float64 [] 16%N); None], s')
    /\ snd s' = pre ++ [EvAstype x0 float64 (inr (mk_ndarray float64 [2] 12%N));
                        EvDot a (mk_ndarray float64 [2] 12%N) (inr ax);
                        EvSub bv ax (inr diff);
                        EvNorm diff (inr (mk_ndarray float64 [] 15%N));
                        EvNorm (mk_ndarray float64 [2] 12%N)
                          (inr (mk_ndarray float64 [] 16%N))].
Proof.
  destruct (@lsqr_tuple_layout Ref.world (Ref.runtime (Ref.writes (-1)))
              (CsrMatrix (Ref.csr_2x2 float64))
              (CupyNdarray (Ref.vec float64 2)) (Ref.regular_world, [])
              (snd (Ref.run (Ref.writes (-1)) (CsrMatrix (Ref.csr_2x2 float64))
                      (CupyNdarray (Ref.vec float64 2)) Ref.regular_world))
              [Some (mk_ndarray float64 [2] 12%N); None; None;
               Some (mk_ndarray float64 [] 15%N); None; None; None; None;
               Some (mk_ndarray float64 [] 16%N); None])
    as (pre & a & bv & x0 & x & ax & diff & r1 & xn & Hlog & _ & Ht & _).
  - vm_compute. reflexivity.
  - injection Ht as Hx Hr1 Hxn. subst x r1 xn.
    eexists. exists pre, a, bv, x0, ax, diff.
    split; [vm_compute; reflexivity | exact Hlog].
Defined.

Lemma lsqr_unsupported_first_witness :
  @cusolver_enabled Ref.world (Ref.runtime Ref.disabled) = false
  /\ Ref.run Ref.disabled (CsrMatrix (Ref.csr_2x3 float64))
       (NumpyNdarray (Ref.vec float64 5)) Ref.regular_world
     = (inl (RuntimeError unsupported_message), (Ref.regular_world, [])).
Proof.
  split; [reflexivity |].
  apply (@lsqr_unsupported_first Ref.world (Ref.runtime Ref.disabled)).
  reflexivity.
Defined.

(** C3, as stated, fails: with a [b] of 5 elements against 2 rows, a
    non-square [A] gives the shape-mismatch error, a host array [b] the
    array-type error, and a runtime without the capability the
    unsupported-operation error; none is a [ValueError]. *)
Lemma bad_b_other_errors :
  py_len (Ref.vec float64 5) <> Some 2
  /\ fst (Ref.run (Ref.writes (-1)) (CsrMatrix (Ref.csr_2x3 float64))
            (CupyNdarray (Ref.vec float64 5)) Ref.regular_world)
     = inl ShapeMismatchError
  /\ fst (Ref.run (Ref.writes (-1)) (CsrMatrix (Ref.csr_2x2 float64))
            (NumpyNdarray (Ref.vec float64 5)) Ref.regular_world)
     = inl NotCupyArrayError
  /\ fst (Ref.run Ref.disabled (CsrMatrix (Ref.csr_2x2 float64))
            (CupyNdarray (Ref.vec float64 5)) Ref.regular_world)
     = inl (RuntimeError unsupported_message).
Proof.
  split; [discriminate |]. repeat split; reflexivity.
Qed.

Lemma lsqr_bad_b_value_error_witness :
  (ndim (Ref.vec float64 5) <> 1
   \/ py_len (Ref.vec float64 5) <> Some (fst (csr_shape (Ref.csr_2x2 float64))))
  /\ Ref.run (Ref.writes (-1)) (CsrMatrix (Ref.csr_2x2 float64))
       (CupyNdarray (Ref.vec float64 5)) Ref.regular_world
     = (inl (ValueError b_size_message), (Ref.regular_world, [])).
Proof.
  split; [right; discriminate |].
  apply (@lsqr_bad_b_value_error Ref.world (Ref.runtime (Ref.writes (-1)))
           (CsrMatrix (Ref.csr_2x2 float64)) (Ref.csr_2x2 float64)
           (Ref.vec float64 5) (Ref.regular_world, [])
           (Ref.regular_world, [])).
  - reflexivity.
  - reflexivity.
  - reflexivity.
  - right. discriminate.
Defined.

Lemma lsqr_postprocessing_witness :
  exists x r1norm xnorm s',
    Ref.run (Ref.writes (-1)) (CsrMatrix (Ref.csr_2x2 float32))
      (CupyNdarray (Ref.vec float32 2)) Ref.regular_world
    = (inr [Some x; None; None; Some r1norm; None; None; None; None;
            Some xnorm; None], s')
    /\ nd_dtype x = float64
    /\ In (EvAstype (mk_ndarray float32 [2] 10%N) float64 (inr x)) (snd s')
    /\ In (EvNorm x (inr xnorm)) (snd s').
Proof.
  destruct (@lsqr_postprocessing Ref.world (Ref.runtime (Ref.writes (-1)))
              (CsrMatrix (Ref.csr_2x2 float32))
              (CupyNdarray (Ref.vec float32 2)) (Ref.regular_world, [])
              (snd (Ref.run (Ref.writes (-1)) (CsrMatrix (Ref.csr_2x2 float32))
                      (CupyNdarray (Ref.vec float32 2)) Ref.regular_world))
              [Some (mk_ndarray float64 [2] 12%N); None; None;
               Some (mk_ndarray float64 [] 15%N); None; None; None; None;
               Some (mk_ndarray float64 [] 16%N); None]
              (ref_astype_law (Ref.writes (-1))))
    as (a & s1 & bv & d & h & x0 & sing & x & ax & diff & r1 & xn & H).
  - vm_compute. reflexivity.
  - destruct H as (_ & _ & _ & _ & Hx & Ht).
    injection Ht as Ex Er1 Exn. subst x r1 xn.
    exists (mk_ndarray float64 [2] 12%N), (mk_ndarray float64 [] 15%N),
           (mk_ndarray float64 [] 16%N).
    eexists. split; [vm_compute; reflexivity |].
    split; [exact Hx |]. split; vm_compute; tauto.
Defined.

(** C8, as stated, fails: without the capability a 2x3 matrix gets the
    unsupported-operation error, not the shape-mismatch error; and with
    the capability, a 2x3 host array, which the conversion of line 39
    refuses, gets the conversion's exception. *)
Lemma nonsquare_without_capability :
  fst (csr_shape (Ref.csr_2x3 float64)) <> snd (csr_shape (Ref.csr_2x3 float64))
  /\ Ref.run Ref.disabled (CsrMatrix (Ref.csr_2x3 float64))
       (CupyNdarray (Ref.vec float64 2)) Ref.regular_world
     = (inl (RuntimeError unsupported_message), (Ref.regular_world, []))
  /\ RuntimeError unsupported_message <> ShapeMismatchError
  /\ fst (Ref.run (Ref.writes (-1))
            (NumpyNdarray (mk_ndarray float64 [2; 3] 1%N))
            (CupyNdarray (Ref.vec float64 2)) Ref.regular_world)
     = inl (CollaboratorError 1%N)
  /\ CollaboratorError 1%N <> ShapeMismatchError.
Proof.
  split; [discriminate |]. split; [reflexivity |].
  split; [discriminate |]. split; [reflexivity | discriminate].
Qed.

Lemma lsqr_nonsquare_rejected_witness :
  fst (csr_shape (Ref.csr_2x3 float64)) <> snd (csr_shape (Ref.csr_2x3 float64))
  /\ Ref.run (Ref.writes (-1)) (CsrMatrix (Ref.csr_2x3 float64))
       (CupyNdarray (Ref.vec float64 2)) Ref.regular_world
     = (inl ShapeMismatchError, (Ref.regular_world, [])).
Proof.
  split; [discriminate |].
  apply (@lsqr_nonsquare_rejected Ref.world (Ref.runtime (Ref.writes (-1)))
           (CsrMatrix (Ref.csr_2x3 float64)) (CupyNdarray (Ref.vec float64 2))
           (Ref.csr_2x3 float64) (Ref.regular_world, [])
           (Ref.regular_world, [])).
  - reflexivity.
  - reflexivity.
  - discriminate.
Defined.

(** C9, as stated, fails: on the singular system the native routine may
    report flag 0 or flag 1; either is written to the host scalar at
    address 11, and the returned tuple and the device memory are the same
    in both runs, so nothing returned tells the flag. *)
Lemma singularity_flag_not_observable :
  (exists t, fst (Ref.singular_run 1) = inr t)
  /\ Ref.lookup (Ref.host (fst (snd (Ref.singular_run 0)))) 11%N = Some [0%Z]
  /\ Ref.lookup (Ref.host (fst (snd (Ref.singular_run 1)))) 11%N = Some [1%Z]
  /\ fst (Ref.singular_run 0) = fst (Ref.singular_run 1)
  /\ Ref.dev (fst (snd (Ref.singular_run 0)))
     = Ref.dev (fst (snd (Ref.singular_run 1)))
  /\ ~ (exists observe : result (list (option ndarray)) -> Z,
          forall flag, observe (fst (Ref.singular_run flag)) = flag).
Proof.
  split; [eexists; vm_compute; reflexivity |].
  split; [reflexivity |]. split; [reflexivity |].
  split; [reflexivity |]. split; [reflexivity |].
  intros [observe H].
  pose proof (H 0%Z) as H0. pose proof (H 1%Z) as H1.
  assert (E : fst (Ref.singular_run 0) = fst (Ref.singular_run 1))
    by reflexivity.
  rewrite E in H0. rewrite H0 in H1. discriminate H1.
Qed.

Lemma lsqr_succeeds_flag_unread_witness :
  forallb event_ok
    (@run_log Ref.world (Ref.runtime (Ref.writes 1))
       (CsrMatrix (Ref.csr_2x2 float64)) (CupyNdarray (Ref.vec float64 2))
       Ref.singular_world) = true
  /\ exists d h x0 sing x ax diff r1norm xnorm s',
       Ref.singular_run 1 = (inr (ret_tuple x r1norm xnorm), s')
       /\ snd s' = [] ++ solve_log (Ref.csr_2x2 float64) (Ref.vec float64 2)
                           d h x0 sing x ax diff r1norm xnorm.
Proof.
  split; [reflexivity |].
  apply (@lsqr_succeeds_flag_unread Ref.world (Ref.runtime (Ref.writes 1))
           (CsrMatrix (Ref.csr_2x2 float64)) (Ref.csr_2x2 float64)
           (Ref.vec float64 2) Ref.singular_world (Ref.singular_world, [])).
  - reflexivity.
  - reflexivity.
  - reflexivity.
  - reflexivity.
  - reflexivity.
  - reflexivity.
Defined.

Lemma lsqr_rejects_host_b_witness :
  (forall bv, NumpyNdarray (Ref.vec float64 2) <> CupyNdarray bv)
  /\ Ref.run (Ref.writes (-1)) (CsrMatrix (Ref.csr_2x2 float64))
       (NumpyNdarray (Ref.vec float64 2)) Ref.regular_world
     = (inl NotCupyArrayError, (Ref.regular_world, [])).
Proof.
  split; [intros bv H; discriminate H |].
  destruct (@lsqr_rejects_host_b Ref.world (Ref.runtime (Ref.writes (-1)))
              (CsrMatrix (Ref.csr_2x2 float64))
              (NumpyNdarray (Ref.vec float64 2)) (Ref.regular_world, []))
    as (_ & _ & H).
  - intros bv H. discriminate H.
  - apply (H (Ref.csr_2x2 float64) (Ref.regular_world, [])); reflexivity.
Defined.

Ltac tail_ok := do 8 eexists; left; eexists; reflexivity.

Ltac tail_fail k :=
  do 8 eexists; right; exists k; do 3 eexists;
  (split; [lia |]); (split; [simpl; reflexivity |]); split; reflexivity.

Section Anatomy.

Context {W : Type} {RT : Runtime W}.

Lemma shape_one (b : ndarray) (m : nat) :
  nd_shape b = [m] <-> ndim b = 1 /\ py_len b = Some m.
Proof.
  unfold ndim, py_len. destruct (nd_shape b) as [| n [| n' l]]; simpl.
  - split; [discriminate | intros [H _]; discriminate H].
  - split.
    + intros H. inversion H. auto.
    + intros [_ H]. inversion H. reflexivity.
  - split; [discriminate | intros [H _]; discriminate H].
Qed.

Lemma lsqr_tail (A : pyobj) (a : csr_matrix) (bv : ndarray) (d : dtype)
    (s s1 : state W) :
  cusolver_enabled = true ->
  as_csr A s = (inr a, s1) ->
  fst (csr_shape a) = snd (csr_shape a) ->
  nd_shape bv = [fst (csr_shape a)] ->
  select_dtype (csr_dtype a) = Some d ->
  tail_outcome a bv d s1 (lsqr A (CupyNdarray bv) s).
Proof.
  intros En Ecsr Hsq Hshape Hd.
  apply shape_one in Hshape. destruct Hshape as [Hnd Hlen].
  eassert (E : lsqr A (CupyNdarray bv) s = _).
  { unfold lsqr. rewrite En. simpl.
    unfold bind at 1. rewrite Ecsr.
    unfold bind at 1, _assert_nd_squareness.
    rewrite (proj2 (Nat.eqb_eq _ _) Hsq). unfold ret at 1.
    unfold bind at 1. simpl. unfold ret at 1.
    unfold bind at 1. simpl. unfold ret at 1.
    unfold bind at 1, check_b.
    rewrite (proj2 (Nat.eqb_eq _ _) Hnd). simpl. rewrite Hlen.
    rewrite Nat.eqb_refl. simpl. unfold ret at 1.
    unfold bind at 1. rewrite Hd. simpl.
    reflexivity. }
  rewrite E. clear E.
  match goal with
  | |- tail_outcome _ _ _ _ ?R => remember R as R0 eqn:HR
  end.
  cbv beta delta [bind call ret raise native] in HR.
  repeat (innermost_match_in HR; simpl in HR).
  all: subst R0.
  all: repeat match goal with u : unit |- _ => destruct u end.
  all: unfold tail_outcome, solve_log, entry_point, native_args_of.
  all: try match goal with E : Ascii.eqb _ _ = _ |- _ => rewrite E end.
  all: rewrite <- ?app_assoc; simpl.
  all: first [ tail_ok | tail_fail 0 | tail_fail 1 | tail_fail 2 | tail_fail 3
             | tail_fail 4 | tail_fail 5 | tail_fail 6 | tail_fail 7
             | tail_fail 8 ].
  Unshelve. all: first [exact bv | exact 0%N].
Qed.

Lemma as_csr_cases (A : pyobj) (s s1 : state W) (r : result csr_matrix) :
  as_csr A s = (r, s1) ->
  (exists a, A = CsrMatrix a /\ r = inr a /\ s1 = s)
  \/ (isspmatrix_csr A = false
      /\ exists w', sparse_csr_matrix A (fst s) = (r, w')
                    /\ s1 = (w', snd s ++ [EvCsrMatrix A r])).
Proof.
  unfold as_csr, call, ret, raise.
  destruct A as [x | x | a |]; simpl.
  3: { intros H. inversion H; subst. left. exists a. auto. }
  all: match goal with
       | |- context [sparse_csr_matrix ?o ?w] =>
           destruct (sparse_csr_matrix o w) as [r0 w0] eqn:E
       end.
  all: intros H; inversion H; subst; right; split; [reflexivity |].
  all: exists w0; split; reflexivity.
Qed.

(** Every run of [lsqr]: the guard that stopped it, or the outcome of
    lines 52-72. *)
Lemma lsqr_run_anatomy (A b : pyobj) (s : state W) :
  (cusolver_enabled = false
   /\ lsqr A b s = (inl (RuntimeError unsupported_message), s))
  \/ (cusolver_enabled = true
      /\ exists e s1, as_csr A s = (inl e, s1) /\ lsqr A b s = (inl e, s1))
  \/ (cusolver_enabled = true
      /\ exists a s1,
           as_csr A s = (inr a, s1)
           /\ ((fst (csr_shape a) <> snd (csr_shape a)
                /\ lsqr A b s = (inl ShapeMismatchError, s1))
               \/ (fst (csr_shape a) = snd (csr_shape a)
                   /\ (forall bv, b <> CupyNdarray bv)
                   /\ lsqr A b s = (inl NotCupyArrayError, s1))
               \/ (fst (csr_shape a) = snd (csr_shape a)
                   /\ exists bv,
                        b = CupyNdarray bv
                        /\ nd_shape bv <> [fst (csr_shape a)]
                        /\ lsqr A b s
                           = (inl (ValueError b_size_message), s1))
               \/ (fst (csr_shape a) = snd (csr_shape a)
                   /\ exists bv d,
                        b = CupyNdarray bv
                        /\ nd_shape bv = [fst (csr_shape a)]
                        /\ select_dtype (csr_dtype a) = Some d
                        /\ tail_outcome a bv d s1 (lsqr A b s)))).
Proof.
  destruct cusolver_enabled eqn:En.
  2: { left. split; [reflexivity |]. apply guard_capability. exact En. }
  right.
  destruct (as_csr A s) as [[e | a] s1] eqn:Ecsr.
  { left. split; [reflexivity |]. exists e, s1. split; [reflexivity |].
    eapply guard_conversion; eassumption. }
  right. split; [reflexivity |]. exists a, s1. split; [reflexivity |].
  destruct (Nat.eq_dec (fst (csr_shape a)) (snd (csr_shape a))) as [Hsq | Hsq].
  2: { left. split; [exact Hsq |]. eapply guard_squareness; eassumption. }
  right.
  destruct b as [bv | bv | c |].
  2, 3, 4: left; split; [exact Hsq |];
    (split; [intros bv' H; discriminate H |]);
    eapply guard_cupy_array; try eassumption; intros bv' H; discriminate H.
  right.
  destruct (list_eq_dec Nat.eq_dec (nd_shape bv) [fst (csr_shape a)])
    as [Hshape | Hshape].
  - right. split; [exact Hsq |].
    destruct (select_dtype_total (csr_dtype a)) as [d Hd].
    exists bv, d. repeat split; try assumption.
    eapply lsqr_tail; eassumption.
  - left. split; [exact Hsq |]. exists bv. repeat split; try assumption.
    eapply guard_b_size; try eassumption.
    destruct (Nat.eq_dec (ndim bv) 1) as [Hnd | Hnd]; [| left; exact Hnd].
    right. intros Hlen. apply Hshape. apply shape_one. split; assumption.
Qed.

Lemma as_csr_converted (A : pyobj) (s : state W) (r : result csr_matrix)
    (w' : W) :
  isspmatrix_csr A = false ->
  sparse_csr_matrix A (fst s) = (r, w') ->
  as_csr A s = (r, (w', snd s ++ [EvCsrMatrix A r])).
Proof.
  intros Hcsr Econv. unfold as_csr, call. rewrite Hcsr. simpl.
  rewrite Econv. reflexivity.
Qed.

Lemma last_error_snoc (l : list event) (ev : event) :
  last_error (l ++ [ev]) = event_error ev.
Proof. unfold last_error. rewrite rev_app_distr. reflexivity. Qed.


End Anatomy.

(** The cases of [lsqr_run_anatomy] for a run started with an empty log,
    with the state after lines 38-39 made explicit. *)
Ltac run_cases A b w :=
  let En := fresh "En" in
  let HR := fresh "HR" in
  let Ecsr := fresh "Ecsr" in
  destruct (lsqr_run_anatomy A b (w, [])) as
    [[En HR]
    | [[En (?e & ?s1 & Ecsr & HR)]
      | [En (?a & ?s1 & Ecsr
             & [[?Hsq HR]
               | [(?Hsq & ?Hb & HR)
                 | [(?Hsq & ?bv & ?Eb & ?Hshape & HR)
                   | (?Hsq & ?bv & ?d & ?Eb & ?Hshape & ?Hd & HR)]]])]]];
  [ | apply as_csr_cases in Ecsr;
      destruct Ecsr as [(?a & _ & Ecsr & _) | (?Hcsr & ?w' & ?Econv & Ecsr)];
      [discriminate Ecsr | subst; simpl in * ]
    | apply as_csr_cases in Ecsr;
      destruct Ecsr as [(?a' & ?EA & Ecsr & ?Es) | (?Hcsr & ?w' & ?Econv & Ecsr)];
      [injection Ecsr as Ecsr; subst; simpl in * | subst; simpl in * ] .. ].

(** The call a failing tail stopped at: one case per position, the failed
    call made explicit. *)
Ltac failure_cases k Hk Hnth Herr ev :=
  first
    [ exfalso; lia
    | destruct k as [| k];
      [ simpl in Hnth; injection Hnth as Hnth; destruct ev;
        try discriminate Hnth; inversion Hnth; subst; clear Hnth;
        simpl in Herr;
        match type of Herr with
        | match ?r with _ => _ end = _ =>
            destruct r; [injection Herr as Herr; subst | discriminate Herr]
        end
      | failure_cases k Hk Hnth Herr ev ] ].

(** The two outcomes of lines 52-72, the failing one split by position. *)
Ltac tail_cases HR :=
  let k := fresh "k" in
  let ev := fresh "ev" in
  let Hk := fresh "Hk" in
  let Hnth := fresh "Hnth" in
  let Herr := fresh "Herr" in
  destruct HR as (?h & ?x0 & ?sing & ?x & ?ax & ?diff & ?r1 & ?xn
                  & [(?w' & HR)
                    | (k & ?e & ev & ?w' & Hk & HR & Hnth & Herr)]);
  [ | unfold solve_log in Hnth; failure_cases k Hk Hnth Herr ev ].

Section Extras.

Context {W : Type} {RT : Runtime W}.

(** X1: [A] is converted exactly when the capability is present and [A]
    is not already a CSR matrix, and then once; a CSR matrix is used as it
    is. *)
Theorem conversion_only_when_needed (A b : pyobj) (w : W) :
  conversions (run_log A b w)
  = if cusolver_enabled && negb (isspmatrix_csr A) then [A] else [].
Proof.
  unfold run_log.
  run_cases A b w.
  9, 10: tail_cases HR.
  all: rewrite HR; simpl; rewrite En; simpl; try rewrite Hcsr; reflexivity.
Qed.

(** X2: [lsqr] stops at the first collaborator call that raises: every
    logged call but the last returned normally, and when the last one
    raised, its exception is what [lsqr] raises, unchanged. *)
Theorem lsqr_stops_at_first_failure (A b : pyobj) (w : W) :
  forallb event_ok (removelast (run_log A b w)) = true
  /\ (forall e, last_error (run_log A b w) = Some e ->
                fst (lsqr A b (w, [])) = inl e).
Proof.
  unfold run_log.
  run_cases A b w.
  9, 10: tail_cases HR.
  all: rewrite HR; simpl.
  all: split; [reflexivity |].
  all: unfold last_error; simpl; intros e' He; try discriminate He.
  all: injection He as He; subst; reflexivity.
Qed.

(** X3: when [lsqr] raises although no collaborator call failed, the
    exception is one of its own four: the unsupported-operation error
    (capability absent), the shape-mismatch error (matrix not square), the
    array-type error ([b] not a cupy array) or the [ValueError] of line 44
    ([b]'s shape is not [(m,)]); it raises no [TypeError] or
    [AttributeError] of its own, and it leaves the state of lines 38-39. *)
Theorem lsqr_own_errors (A b : pyobj) (w : W) (e : exn) (s' : state W) :
  lsqr A b (w, []) = (inl e, s') ->
  last_error (snd s') = None ->
  (e = RuntimeError unsupported_message /\ cusolver_enabled = false
   /\ s' = (w, []))
  \/ exists a,
       as_csr A (w, []) = (inr a, s')
       /\ ((e = ShapeMismatchError
            /\ fst (csr_shape a) <> snd (csr_shape a))
           \/ (e = NotCupyArrayError
               /\ fst (csr_shape a) = snd (csr_shape a)
               /\ forall bv, b <> CupyNdarray bv)
           \/ (e = ValueError b_size_message
               /\ fst (csr_shape a) = snd (csr_shape a)
               /\ exists bv, b = CupyNdarray bv
                             /\ nd_shape bv <> [fst (csr_shape a)])).
Proof.
  intros H Hlast.
  destruct (lsqr_run_anatomy A b (w, [])) as
    [[En HR]
    | [[En (e0 & s1 & Ecsr & HR)]
      | [En (a & s1 & Ecsr
             & [[Hsq HR]
               | [(Hsq & Hb & HR)
                 | [(Hsq & bv & Eb & Hshape & HR)
                   | (Hsq & bv & d & Eb & Hshape & Hd & HR)]]])]]].
  - rewrite HR in H. injection H as He Hs. subst. left. auto.
  - rewrite HR in H. injection H as He Hs. subst. exfalso.
    apply as_csr_cases in Ecsr.
    destruct Ecsr as [(a & _ & Ecsr & _) | (_ & w' & _ & Ecsr)].
    + discriminate Ecsr.
    + subst. simpl in Hlast. unfold last_error in Hlast. simpl in Hlast.
      discriminate Hlast.
  - rewrite HR in H. injection H as He Hs. subst. right. exists a. auto.
  - rewrite HR in H. injection H as He Hs. subst. right. exists a. auto 6.
  - rewrite HR in H. injection H as He Hs. subst. right. exists a.
    split; [exact Ecsr |]. right. right. split; [reflexivity |].
    split; [exact Hsq |]. exists bv. auto.
  - exfalso.
    destruct HR as (h & x0 & sing & x & ax & diff & r1 & xn
                    & [(w' & HR) | (k & e1 & ev & w' & Hk & HR & Hnth & Herr)]).
    + rewrite HR in H. discriminate H.
    + rewrite HR in H. injection H as He Hs. subst. simpl in Hlast.
      rewrite app_assoc, last_error_snoc in Hlast. congruence.
Qed.

(** X4: [lsqr] returns only for valid input: the capability is present,
    [A] is (or converted to) a square CSR matrix and [b] is a cupy array
    of shape [(m,)], [m] being the row count. *)
Theorem lsqr_returns_only_on_valid_input (A b : pyobj) (s s' : state W)
    (t : list (option ndarray)) :
  lsqr A b s = (inr t, s') ->
  cusolver_enabled = true
  /\ exists a s1 bv,
       as_csr A s = (inr a, s1)
       /\ fst (csr_shape a) = snd (csr_shape a)
       /\ b = CupyNdarray bv
       /\ nd_shape bv = [fst (csr_shape a)].
Proof.
  intros H. apply lsqr_success_anatomy in H.
  destruct H as (a & s1 & bv & d & h & x0 & sing & x & ax & diff & r1 & xn
                 & H).
  destruct H as (En & Ecsr & Hsq & Eb & Hnd & Hlen & _).
  split; [exact En |]. exists a, s1, bv. repeat split; try assumption.
  apply shape_one. split; assumption.
Qed.

(** Any logged native call, with the three calls before it. *)
Lemma native_call_anatomy (A b : pyobj) (w : W) (p : precision)
    (args : native_args) (r : result unit) :
  In (EvNative p args r) (run_log A b w) ->
  exists a s1 bv d h x0 sing rest,
    as_csr A (w, []) = (inr a, s1)
    /\ b = CupyNdarray bv
    /\ select_dtype (csr_dtype a) = Some d
    /\ p = entry_point d
    /\ args = native_args_of a bv h x0 sing
    /\ run_log A b w
       = snd s1
         ++ [EvGetHandle (inr h);
             EvCupyEmpty (fst (csr_shape a)) d (inr x0);
             EvNumpyEmpty 1 int64 (inr sing);
             EvNative p args r]
         ++ rest.
Proof.
  unfold run_log. intros H.
  run_cases A b w.
  9, 10: tail_cases HR.
  all: rewrite HR in H |- *; simpl in H |- *.
  all: repeat (destruct H as [H | H]; try discriminate H);
    try contradiction.
  all: injection H as Hp Ha Hr; subst.
  all: do 8 eexists.
  all: (split; [first [reflexivity
                      | eapply as_csr_converted; [assumption | eassumption]] |]).
  all: (split; [reflexivity |]).
  all: (split; [eassumption |]).
  all: (split; [reflexivity |]).
  all: (split; [reflexivity |]).
  all: simpl; reflexivity.
Qed.

(** X5: whenever a native call is made, [A] passed lines 38-40 as the CSR
    matrix [a], [b] is a cupy array, the entry point is the one of the
    working type [d], and the arguments are those of line 63: the handle
    the accessor returned, [a]'s row count, nonzero count, descriptor and
    own three buffers, [b]'s own buffer, the buffer [cupy.empty(m, d)]
    returned and the scalar [numpy.empty(1, int64)] returned.  These three
    calls come right before the native call. *)
Theorem native_call_arguments (A b : pyobj) (w : W) (p : precision)
    (args : native_args) (r : result unit) :
  In (EvNative p args r) (run_log A b w) ->
  exists a s1 bv d h x0 sing rest,
    as_csr A (w, []) = (inr a, s1)
    /\ b = CupyNdarray bv
    /\ select_dtype (csr_dtype a) = Some d
    /\ p = entry_point d
    /\ args = native_args_of a bv h x0 sing
    /\ run_log A b w
       = snd s1
         ++ [EvGetHandle (inr h);
             EvCupyEmpty (fst (csr_shape a)) d (inr x0);
             EvNumpyEmpty 1 int64 (inr sing);
             EvNative p args r]
         ++ rest.
Proof. apply native_call_anatomy. Qed.


(** X6: a run makes at most one native call: there is no retry. *)
Theorem at_most_one_native_call (A b : pyobj) (w : W) :
  List.length (native_calls (run_log A b w)) <= 1.
Proof.
  unfold run_log.
  destruct (lsqr_native_calls_shape A b (w, [])) as [E | E].
  - rewrite E. simpl. lia.
  - destruct E as (a & bv & d & h & x0 & sing & _ & E).
    rewrite E. simpl. lia.
Qed.

(** X7: the only cast a run makes is the upcast of the solution: either
    no [astype] call is logged, or exactly one, to [float64], on the buffer
    [cupy.empty] returned and the native call, which had returned, was
    given.  Neither [A]'s buffers nor [b] are ever cast to the working
    type. *)
Theorem only_cast_is_result_upcast (A b : pyobj) (w : W) :
  casts (run_log A b w) = []
  \/ exists x0 n d p args,
       casts (run_log A b w) = [(x0, float64)]
       /\ In (EvCupyEmpty n d (inr x0)) (run_log A b w)
       /\ In (EvNative p args (inr tt)) (run_log A b w)
       /\ na_x args = nd_ptr x0.
Proof.
  unfold run_log.
  run_cases A b w.
  9, 10: tail_cases HR.
  all: rewrite HR; simpl.
  all: try (left; reflexivity).
  all: right; do 5 eexists; (split; [reflexivity |]).
  all: repeat match goal with u : unit |- _ => destruct u end.
  all: split; [| split]; [simpl; tauto | simpl; tauto | reflexivity].
Qed.

(** X8: with a CSR matrix, invalid input touches nothing: when the matrix
    is not square, or [b] is not a cupy array, or [b]'s shape is not
    [(m,)], [lsqr] raises with the collaborators' world and the log as they
    were, whether or not the capability is present. *)
Theorem csr_validation_failure_touches_nothing (a : csr_matrix) (b : pyobj)
    (s : state W) :
  fst (csr_shape a) <> snd (csr_shape a)
  \/ (forall bv, b <> CupyNdarray bv)
  \/ (exists bv, b = CupyNdarray bv /\ nd_shape bv <> [fst (csr_shape a)]) ->
  exists e, lsqr (CsrMatrix a) b s = (inl e, s).
Proof.
  intros Hbad.
  assert (Ecsr0 : as_csr (CsrMatrix a) s = (inr a, s)) by reflexivity.
  destruct (lsqr_run_anatomy (CsrMatrix a) b s) as
    [[En HR]
    | [[En (e0 & s1 & Ecsr & HR)]
      | [En (a1 & s1 & Ecsr
             & [[Hsq HR]
               | [(Hsq & Hb & HR)
                 | [(Hsq & bv & Eb & Hshape & HR)
                   | (Hsq & bv & d & Eb & Hshape & Hd & HR)]]])]]].
  - eexists. exact HR.
  - rewrite Ecsr0 in Ecsr. discriminate Ecsr.
  - rewrite Ecsr0 in Ecsr. injection Ecsr as Ea Es. subst.
    eexists. exact HR.
  - rewrite Ecsr0 in Ecsr. injection Ecsr as Ea Es. subst.
    eexists. exact HR.
  - rewrite Ecsr0 in Ecsr. injection Ecsr as Ea Es. subst.
    eexists. exact HR.
  - rewrite Ecsr0 in Ecsr. injection Ecsr as Ea Es. subst. exfalso.
    destruct Hbad as [Hbad | [Hbad | (bv' & Eb' & Hbad)]].
    + contradiction.
    + apply (Hbad bv). reflexivity.
    + injection Eb' as Eb'. subst. contradiction.
Qed.

End Extras.

(** X9: the working type by element type of [A]: [bool], the integers of
    at most 16 bits, [float16] and [float32] are solved in [float32]; the
    wider integers and [float64] in [float64]; a complex type is kept. *)
Theorem select_dtype_table (a : dtype) :
  select_dtype a
  = Some (match dtype_kind a with
          | KComplex => a
          | _ => if (component_bits a <=? 16) || dtype_eqb a float32
                 then float32 else float64
          end).
Proof. destruct a; reflexivity. Qed.

(** X10: the working type is the narrowest that takes both [A]'s element
    type and [float32]: both cast to it, and every type both cast to, the
    working type casts to as well. *)
Theorem select_dtype_least (a d : dtype) :
  select_dtype a = Some d ->
  can_cast a d = true
  /\ can_cast float32 d = true
  /\ forall t, can_cast a t = true -> can_cast float32 t = true ->
               can_cast d t = true.
Proof.
  destruct a; vm_compute; intros H; injection H as H; subst;
    (split; [reflexivity |]); (split; [reflexivity |]);
    intros t; destruct t; vm_compute; intros H1 H2;
    first [reflexivity | discriminate H1 | discriminate H2].
Qed.

(** X11: for a matrix of real element type the entry point matches the
    working type: [scsrlsvqr] is taken exactly when it is [float32] and
    [dcsrlsvqr] exactly when it is [float64]. *)
Theorem real_matrix_dispatch_matches (a d : dtype) :
  dtype_kind a <> KComplex ->
  select_dtype a = Some d ->
  (entry_point d = Single <-> d = float32)
  /\ (entry_point d = Double <-> d = float64).
Proof.
  destruct a; vm_compute; intros Hk H; injection H as H; subst;
    try (exfalso; apply Hk; reflexivity);
    split; split; intros H'; first [reflexivity | discriminate H'].
Qed.

(** ** Runs of the reference runtime for the further properties *)

(** A native call that fails is the last call of the run, and its
    exception is the result. *)
Example native_failure_aborts :
  Ref.run Ref.native_fails (CsrMatrix (Ref.csr_2x2 float64))
    (CupyNdarray (Ref.vec float64 2)) Ref.regular_world
  = (inl (CollaboratorError 1%N),
     (Ref.mk_world 12%N ((10%N, Ref.BUninit 2) :: Ref.dev Ref.regular_world) [(11%N, [0%Z])],
      [EvGetHandle (inr 7%N);
       EvCupyEmpty 2 float64 (inr (mk_ndarray float64 [2] 10%N));
       EvNumpyEmpty 1 int64 (inr (mk_ndarray int64 [1] 11%N));
       EvNative Double
         (native_args_of (Ref.csr_2x2 float64) (Ref.vec float64 2) 7%N
            (mk_ndarray float64 [2] 10%N) (mk_ndarray int64 [1] 11%N))
         (inl (CollaboratorError 1%N))])).
Proof. vm_compute. reflexivity. Qed.

Lemma lsqr_own_errors_witness :
  Ref.run (Ref.writes (-1)) (CsrMatrix (Ref.csr_2x2 float64))
    (CupyNdarray (Ref.vec float64 5)) Ref.regular_world
  = (inl (ValueError b_size_message), (Ref.regular_world, []))
  /\ last_error (snd (Ref.regular_world, @nil event)) = None
  /\ exists bv, CupyNdarray (Ref.vec float64 5) = CupyNdarray bv
                /\ nd_shape bv <> [2].
Proof.
  split; [reflexivity |]. split; [reflexivity |].
  destruct (@lsqr_own_errors Ref.world (Ref.runtime (Ref.writes (-1)))
              (CsrMatrix (Ref.csr_2x2 float64))
              (CupyNdarray (Ref.vec float64 5)) Ref.regular_world
              (ValueError b_size_message) (Ref.regular_world, []))
    as [(H & _) | (a & Ea & [(H & _) | [(H & _) | (_ & _ & H)]])].
  - reflexivity.
  - reflexivity.
  - discriminate H.
  - discriminate H.
  - discriminate H.
  - injection Ea as Ea. subst a. exact H.
Defined.

Lemma lsqr_returns_only_on_valid_input_witness :
  (exists t s',
     Ref.run (Ref.writes (-1)) (CsrMatrix (Ref.csr_2x2 float64))
       (CupyNdarray (Ref.vec float64 2)) Ref.regular_world = (inr t, s'))
  /\ exists a s1 bv,
       @as_csr Ref.world (Ref.runtime (Ref.writes (-1)))
         (CsrMatrix (Ref.csr_2x2 float64)) (Ref.regular_world, [])
       = (inr a, s1)
       /\ fst (csr_shape a) = snd (csr_shape a)
       /\ CupyNdarray (Ref.vec float64 2) = CupyNdarray bv
       /\ nd_shape bv = [fst (csr_shape a)].
Proof.
  split; [eexists; eexists; vm_compute; reflexivity |].
  refine (proj2 (@lsqr_returns_only_on_valid_input Ref.world
                   (Ref.runtime (Ref.writes (-1)))
                   (CsrMatrix (Ref.csr_2x2 float64))
                   (CupyNdarray (Ref.vec float64 2)) (Ref.regular_world, [])
                   _ _ _)).
  vm_compute. reflexivity.
Defined.

Lemma native_call_arguments_witness :
  In (EvNative Double
        (native_args_of (Ref.csr_2x2 float64) (Ref.vec float64 2) 7%N
           (mk_ndarray float64 [2] 10%N) (mk_ndarray int64 [1] 11%N))
        (inr tt))
     (@run_log Ref.world (Ref.runtime (Ref.writes (-1)))
        (CsrMatrix (Ref.csr_2x2 float64)) (CupyNdarray (Ref.vec float64 2))
        Ref.regular_world)
  /\ exists a bv d h x0 sing,
       CupyNdarray (Ref.vec float64 2) = CupyNdarray bv
       /\ select_dtype (csr_dtype a) = Some d
       /\ Double = entry_point d
       /\ native_args_of (Ref.csr_2x2 float64) (Ref.vec float64 2) 7%N
            (mk_ndarray float64 [2] 10%N) (mk_ndarray int64 [1] 11%N)
          = native_args_of a bv h x0 sing.
Proof.
  assert (H : In (EvNative Double
                    (native_args_of (Ref.csr_2x2 float64) (Ref.vec float64 2)
                       7%N (mk_ndarray float64 [2] 10%N)
                       (mk_ndarray int64 [1] 11%N))
                    (inr tt))
                 (@run_log Ref.world (Ref.runtime (Ref.writes (-1)))
                    (CsrMatrix (Ref.csr_2x2 float64))
                    (CupyNdarray (Ref.vec float64 2)) Ref.regular_world)).
  { vm_compute. do 3 right. left. reflexivity. }
  split; [exact H |].
  destruct (@native_call_arguments Ref.world (Ref.runtime (Ref.writes (-1)))
              _ _ _ _ _ _ H)
    as (a & s1 & bv & d & h & x0 & sing & rest & _ & Eb & Hd & Hp & Ha & _).
  exists a, bv, d, h, x0, sing. auto.
Defined.

Lemma csr_validation_failure_touches_nothing_witness :
  fst (csr_shape (Ref.csr_2x3 float64)) <> snd (csr_shape (Ref.csr_2x3 float64))
  /\ exists e,
       Ref.run (Ref.writes (-1)) (CsrMatrix (Ref.csr_2x3 float64)) PyOther
         Ref.regular_world
       = (inl e, (Ref.regular_world, [])).
Proof.
  split; [discriminate |].
  apply (@csr_validation_failure_touches_nothing Ref.world
           (Ref.runtime (Ref.writes (-1))) (Ref.csr_2x3 float64) PyOther
           (Ref.regular_world, [])).
  left. discriminate.
Defined.

Lemma select_dtype_least_witness :
  select_dtype int32 = Some float64
  /\ can_cast int32 float64 = true
  /\ can_cast float32 float64 = true
  /\ forall t, can_cast int32 t = true -> can_cast float32 t = true ->
               can_cast float64 t = true.
Proof.
  split; [reflexivity |].
  apply (select_dtype_least int32 float64). reflexivity.
Defined.

Lemma real_matrix_dispatch_matches_witness :
  dtype_kind int16 <> KComplex
  /\ select_dtype int16 = Some float32
  /\ (entry_point float32 = Single <-> float32 = float32)
  /\ (entry_point float32 = Double <-> float32 = float64).
Proof.
  split; [discriminate |]. split; [reflexivity |].
  apply (real_matrix_dispatch_matches int16 float32).
  - discriminate.
  - reflexivity.
Defined.

